(** * tdump: the LLDB command handler of tree-dump-debugger

    A shallow embedding of [src/tdump.py].  The script is one function,
    [handle_tdump_command], that talks to the LLDB scripting API.  The API is
    not part of the repository, so it is an interface here ([LLDB]): the
    handler is a program in a small state monad over a [World] that holds the
    host's state, the store of command-return objects (by reference, as Python
    shares them) and the log of API calls the handler has made. *)

From Stdlib Require Import String Ascii.
From stdpp Require Import base list strings.

Local Open Scope string_scope.
Local Open Scope list_scope.

(** ** Python values used by the handler *)

(** [if s:] on a Python string: the empty string is false, any other true. *)
Definition truthy (s : string) : bool :=
  match s with
  | EmptyString => false
  | String _ _ => true
  end.

(** [template.format(arg)]: every replacement field [{}] of the template is
    replaced by the argument, taken as it is; all other characters are copied.
    The templates of the handler are literals with at most one field and no
    other brace (Python raises on a second auto-numbered field or on a stray
    brace; no template of the source has one). *)
Fixpoint format (template : string) (arg : string) : string :=
  match template with
  | EmptyString => EmptyString
  | String a rest =>
      match rest with
      | EmptyString => String a EmptyString
      | String b rest' =>
          if (Ascii.eqb a "{" && Ascii.eqb b "}")%bool
          then arg +:+ format rest' arg
          else String a (format rest arg)
      end
  end.

(** The number of single-quote characters of a string, and whether they pair
    up: a command with an odd number holds a quote that nothing closes. *)
Fixpoint quotes (s : string) : nat :=
  match s with
  | EmptyString => 0
  | String a rest => (if Ascii.eqb a "'" then 1 else 0) + quotes rest
  end.

Definition quotes_balanced (s : string) : bool := Nat.even (quotes s).

(** ** The LLDB scripting API, as the handler uses it *)

(** [lldb.ReturnStatus]. *)
Inductive ReturnStatus : Type :=
  | eReturnStatusInvalid
  | eReturnStatusSuccessFinishNoResult
  | eReturnStatusSuccessFinishResult
  | eReturnStatusSuccessContinuingNoResult
  | eReturnStatusSuccessContinuingResult
  | eReturnStatusStarted
  | eReturnStatusFailed
  | eReturnStatusQuit.

(** The host: handles the handler receives or obtains, the state of a
    command-return object, the state of the debugger with its debuggee, and
    what each API call does to them. *)
Class LLDB : Type := {
  SBDebugger : Type;
  SBCommandInterpreter : Type;
  SBTarget : Type;
  SBProcess : Type;
  PyDict : Type;
  (** the state of one [SBCommandReturnObject] *)
  CommandReturn : Type;
  (** the state of the debugger and of the debuggee *)
  Host : Type;
  (** [lldb.SBCommandReturnObject()] *)
  host_SBCommandReturnObject : CommandReturn;
  (** [res.GetError()], [result.SetError(e)], [result.SetStatus(s)] *)
  host_GetError : CommandReturn -> string;
  host_SetError : string -> CommandReturn -> CommandReturn;
  host_SetStatus : ReturnStatus -> CommandReturn -> CommandReturn;
  (** [str(target)], as [format] renders a target *)
  host_str : SBTarget -> Host -> string;
  (** [debugger.GetCommandInterpreter()] *)
  host_GetCommandInterpreter : SBDebugger -> Host -> SBCommandInterpreter;
  (** [interpreter.HandleCommand(command, res)]: runs the command in the
      debuggee and writes its outcome into the object it was handed, whose
      state on entry it sees *)
  host_HandleCommand :
    SBCommandInterpreter -> string -> Host -> CommandReturn -> Host * CommandReturn;
  (** [debugger.GetSelectedTarget()], [target.GetProcess()] *)
  host_GetSelectedTarget : SBDebugger -> Host -> SBTarget;
  host_GetProcess : SBTarget -> Host -> SBProcess;
  (** [debugger.SetAsync(b)], [process.Continue()] *)
  host_SetAsync : SBDebugger -> bool -> Host -> Host;
  host_Continue : SBProcess -> Host -> Host
}.

(** A Python reference to a command-return object: its index in the store. *)
Definition ref : Type := nat.

(** [SBExecutionContext], of which the handler reads [target]. *)
Record SBExecutionContext `{LLDB} : Type := {
  target : SBTarget
}.

(** One call of the handler into the API, with its arguments. *)
Inductive Call `{LLDB} : Type :=
  | Call_SBCommandReturnObject (r : ref)
  | Call_GetCommandInterpreter (debugger : SBDebugger)
  | Call_HandleCommand (interpreter : SBCommandInterpreter) (command : string) (res : ref)
  | Call_GetError (res : ref)
  | Call_SetError (result : ref) (e : string)
  | Call_GetSelectedTarget (debugger : SBDebugger)
  | Call_GetProcess (t : SBTarget)
  | Call_SetStatus (result : ref) (s : ReturnStatus)
  | Call_SetAsync (debugger : SBDebugger) (b : bool)
  | Call_Continue (process : SBProcess).

(** The world a script runs in. [calls] is in the order the calls were made. *)
Record World `{LLDB} : Type := mkWorld {
  host : Host;
  objects : list CommandReturn;
  calls : list Call
}.

Arguments mkWorld {_} _ _ _.

(** ** The script monad *)

Definition Script `{LLDB} (A : Type) : Type := World -> A * World.

Definition ret `{LLDB} {A : Type} (a : A) : Script A := fun w => (a, w).

Definition bind `{LLDB} {A B : Type} (m : Script A) (k : A -> Script B) : Script B :=
  fun w => let (a, w') := m w in k a w'.

Notation "'let*' x ':=' m 'in' k" := (bind m (fun x => k))
  (at level 10, x name, m at level 100, k at level 200).
Notation "m ';;;' k" := (bind m (fun _ => k))
  (at level 100, k at level 200, right associativity).

Section API.
Context `{LLDB}.

(** The state of the object behind a reference. A reference the store does
    not hold cannot arise in Python; the model reads a new object there. *)
Definition deref (r : ref) (w : World) : CommandReturn :=
  default host_SBCommandReturnObject (objects w !! r).

Definition logged (c : Call) (w : World) : World :=
  mkWorld (host w) (objects w) (calls w ++ [c]).

Definition SBCommandReturnObject : Script ref :=
  fun w =>
    let r := length (objects w) in
    (r, mkWorld (host w) (objects w ++ [host_SBCommandReturnObject])
                (calls w ++ [Call_SBCommandReturnObject r])).

Definition GetCommandInterpreter (debugger : SBDebugger) : Script SBCommandInterpreter :=
  fun w => (host_GetCommandInterpreter debugger (host w),
            logged (Call_GetCommandInterpreter debugger) w).

Definition str (t : SBTarget) : Script string :=
  fun w => (host_str t (host w), w).

Definition HandleCommand (interpreter : SBCommandInterpreter) (command : string)
    (res : ref) : Script unit :=
  fun w =>
    let (h', c') := host_HandleCommand interpreter command (host w) (deref res w) in
    (tt, mkWorld h' (<[res := c']> (objects w))
                 (calls w ++ [Call_HandleCommand interpreter command res])).

Definition GetError (res : ref) : Script string :=
  fun w => (host_GetError (deref res w), logged (Call_GetError res) w).

Definition SetError (result : ref) (e : string) : Script unit :=
  fun w =>
    (tt, mkWorld (host w) (<[result := host_SetError e (deref result w)]> (objects w))
                 (calls w ++ [Call_SetError result e])).

Definition SetStatus (result : ref) (s : ReturnStatus) : Script unit :=
  fun w =>
    (tt, mkWorld (host w) (<[result := host_SetStatus s (deref result w)]> (objects w))
                 (calls w ++ [Call_SetStatus result s])).

Definition GetSelectedTarget (debugger : SBDebugger) : Script SBTarget :=
  fun w => (host_GetSelectedTarget debugger (host w),
            logged (Call_GetSelectedTarget debugger) w).

Definition GetProcess (t : SBTarget) : Script SBProcess :=
  fun w => (host_GetProcess t (host w), logged (Call_GetProcess t) w).

Definition SetAsync (debugger : SBDebugger) (b : bool) : Script unit :=
  fun w =>
    (tt, mkWorld (host_SetAsync debugger b (host w)) (objects w)
                 (calls w ++ [Call_SetAsync debugger b])).

Definition Continue (process : SBProcess) : Script unit :=
  fun w =>
    (tt, mkWorld (host_Continue process (host w)) (objects w)
                 (calls w ++ [Call_Continue process])).

(** ** The handler *)

(** The list [commands] of the handler, from the rendering of [ctx.target]
    and the expression the user typed. *)
Definition commands (target_str expression : string) : list string :=
  [ format "e -l swift -- import {}" target_str;
    "e -l swift -- import UIKit";
    format "e -l swift -- TreeDumpDebugger.present({})" expression;
    "e -l swift -- CATransaction.flush()" ].

(** The [for command in commands] loop. The result says whether the body
    executed its [return]. *)
Fixpoint for_command_in (interpreter : SBCommandInterpreter) (res result : ref)
    (cmds : list string) : Script bool :=
  match cmds with
  | [] => ret false
  | command :: rest =>
      HandleCommand interpreter command res;;;
      let* e := GetError res in
      if truthy e then
        let* e' := GetError res in
        SetError result e';;;
        ret true
      else for_command_in interpreter res result rest
  end.

Definition handle_tdump_command (debugger : SBDebugger) (expression : string)
    (ctx : SBExecutionContext) (result : ref) (internal_dict : PyDict) : Script unit :=
  let* res := SBCommandReturnObject in
  let* interpreter := GetCommandInterpreter debugger in
  let* target_str := str (target ctx) in
  let* returned := for_command_in interpreter res result (commands target_str expression) in
  if returned : bool then ret tt
  else
    let* t := GetSelectedTarget debugger in
    let* process := GetProcess t in
    SetStatus result eReturnStatusSuccessContinuingNoResult;;;
    SetAsync debugger true;;;
    Continue process.

End API.

(** ** Reading the log of calls *)

Section Log.
Context `{LLDB}.

(** The command strings handed to [HandleCommand], in order. *)
Definition submitted (cs : list Call) : list string :=
  omap (fun c => match c with Call_HandleCommand _ command _ => Some command | _ => None end) cs.

(** The objects handed to [HandleCommand], in order. *)
Definition handed (cs : list Call) : list ref :=
  omap (fun c => match c with Call_HandleCommand _ _ res => Some res | _ => None end) cs.

(** The objects [SBCommandReturnObject()] created. *)
Definition allocated (cs : list Call) : list ref :=
  omap (fun c => match c with Call_SBCommandReturnObject r => Some r | _ => None end) cs.

(** The processes [Continue] was called on. *)
Definition resumed (cs : list Call) : list SBProcess :=
  omap (fun c => match c with Call_Continue p => Some p | _ => None end) cs.

(** The arguments of the [SetAsync] calls. *)
Definition async_set (cs : list Call) : list bool :=
  omap (fun c => match c with Call_SetAsync _ b => Some b | _ => None end) cs.

(** The [SetError] and [SetStatus] calls, with the object written. *)
Definition errors_set (cs : list Call) : list (ref * string) :=
  omap (fun c => match c with Call_SetError r e => Some (r, e) | _ => None end) cs.

Definition statuses_set (cs : list Call) : list (ref * ReturnStatus) :=
  omap (fun c => match c with Call_SetStatus r s => Some (r, s) | _ => None end) cs.

(** The debuggers asked for their command interpreter, and the interpreters
    the commands were submitted through. *)
Definition interpreters_asked (cs : list Call) : list SBDebugger :=
  omap (fun c => match c with Call_GetCommandInterpreter d => Some d | _ => None end) cs.

Definition interpreters_used (cs : list Call) : list SBCommandInterpreter :=
  omap (fun c => match c with Call_HandleCommand i _ _ => Some i | _ => None end) cs.

(** Whether a call writes the object [r]: the setters do; so does
    [HandleCommand], which fills the object it is handed. *)
Definition writes (r : ref) (c : Call) : bool :=
  match c with
  | Call_HandleCommand _ _ r' | Call_SetError r' _ | Call_SetStatus r' _ => Nat.eqb r r'
  | _ => false
  end.

(** The calls one pass of the loop makes for each command it submits. *)
Definition loop_calls (interpreter : SBCommandInterpreter) (res : ref)
    (cmds : list string) : list Call :=
  flat_map (fun command => [Call_HandleCommand interpreter command res; Call_GetError res]) cmds.

(** The host's side of [k] submissions that share one object: each command
    sees the object as the one before left it. *)
Fixpoint host_run (interpreter : SBCommandInterpreter) (cmds : list string)
    (h : Host) (c : CommandReturn) : Host * CommandReturn :=
  match cmds with
  | [] => (h, c)
  | command :: rest =>
      let (h', c') := host_HandleCommand interpreter command h c in
      host_run interpreter rest h' c'
  end.

End Log.

(** ** One invocation *)

Section Invocation.
Context `{LLDB}.
Variables (debugger : SBDebugger) (expression : string) (ctx : SBExecutionContext)
          (result : ref) (internal_dict : PyDict) (w : World).

(** The world the handler leaves, and the calls it made. *)
Definition run : World :=
  snd (handle_tdump_command debugger expression ctx result internal_dict w).

Definition trace : list Call := drop (length (calls w)) (calls run).

(** What the invocation works with. *)
Definition the_res : ref := length (objects w).
Definition the_interpreter : SBCommandInterpreter :=
  host_GetCommandInterpreter debugger (host w).
Definition the_commands : list string :=
  commands (host_str (target ctx) (host w)) expression.

(** The host and the shared object after the first [k] sub-commands. *)
Definition after (k : nat) : Host * CommandReturn :=
  host_run the_interpreter (take k the_commands) (host w) host_SBCommandReturnObject.

(** The error text sub-command [k] returns. *)
Definition error_of (k : nat) : string := host_GetError (snd (after k)).

(** Sub-command [k] is evaluated and returns the error [e]. *)
Definition fails_at (k : nat) (e : string) : Prop :=
  1 <= k <= 4 /\ (forall j, 1 <= j < k -> error_of j = "") /\
  error_of k = e /\ e <> "".

(** All four sub-commands are evaluated and none returns an error. *)
Definition all_succeed : Prop := forall j, 1 <= j <= 4 -> error_of j = "".

(** The store after the first [k] sub-commands: the objects the handler was
    called with, and the one it created, as sub-command [k] left it. *)
Definition objects_after (k : nat) : list CommandReturn :=
  objects w ++ [snd (after k)].

(** The target selected, and its process, once the four sub-commands ran. *)
Definition selected_target : SBTarget :=
  host_GetSelectedTarget debugger (fst (after 4)).
Definition selected_process : SBProcess :=
  host_GetProcess selected_target (fst (after 4)).

(** The calls of an invocation whose sub-commands all succeed, and the world
    it leaves. *)
Definition success_calls : list Call :=
  [Call_SBCommandReturnObject the_res; Call_GetCommandInterpreter debugger]
  ++ loop_calls the_interpreter the_res the_commands
  ++ [Call_GetSelectedTarget debugger; Call_GetProcess selected_target;
      Call_SetStatus result eReturnStatusSuccessContinuingNoResult;
      Call_SetAsync debugger true; Call_Continue selected_process].

Definition success_world : World :=
  mkWorld (host_Continue selected_process (host_SetAsync debugger true (fst (after 4))))
          (<[result := host_SetStatus eReturnStatusSuccessContinuingNoResult
                         (default host_SBCommandReturnObject (objects_after 4 !! result))]>
             (objects_after 4))
          (calls w ++ success_calls).

(** The calls of an invocation whose sub-command [k] returns the error [e],
    and the world it leaves. *)
Definition failure_calls (k : nat) (e : string) : list Call :=
  [Call_SBCommandReturnObject the_res; Call_GetCommandInterpreter debugger]
  ++ loop_calls the_interpreter the_res (take k the_commands)
  ++ [Call_GetError the_res; Call_SetError result e].

Definition failure_world (k : nat) (e : string) : World :=
  mkWorld (fst (after k))
          (<[result := host_SetError e
                         (default host_SBCommandReturnObject (objects_after k !! result))]>
             (objects_after k))
          (calls w ++ failure_calls k e).

End Invocation.

(** ** A mock host

    The host a test of the handler would supply: a sub-command fails when the
    table [failing] lists it, with the error text listed; the host clears the
    return object on entry of [HandleCommand], as LLDB does, and remembers what
    it evaluated and which processes it resumed. *)

Module Mock.

Record Target : Type := { name : string; process : nat }.

Record Return : Type := { error : string; status : ReturnStatus }.

Record State : Type := {
  selected : Target;
  async : bool;
  failing : list (string * string);
  evaluated : list string;
  running : list nat
}.

Definition lookup_error (command : string) (table : list (string * string)) : string :=
  match List.find (fun p => String.eqb (fst p) command) table with
  | Some p => snd p
  | None => ""
  end.

Definition evaluate (command : string) (h : State) (c : Return) : State * Return :=
  let e := lookup_error command (failing h) in
  ({| selected := selected h; async := async h; failing := failing h;
      evaluated := evaluated h ++ [command]; running := running h |},
   {| error := e;
      status := if truthy e then eReturnStatusFailed
                else eReturnStatusSuccessFinishResult |}).

#[global] Instance lldb : LLDB := {|
  SBDebugger := unit;
  SBCommandInterpreter := unit;
  SBTarget := Target;
  SBProcess := nat;
  PyDict := unit;
  CommandReturn := Return;
  Host := State;
  host_SBCommandReturnObject := {| error := ""; status := eReturnStatusInvalid |};
  host_GetError := error;
  host_SetError := fun e c => {| error := e; status := eReturnStatusFailed |};
  host_SetStatus := fun s c => {| error := error c; status := s |};
  host_str := fun t _ => name t;
  host_GetCommandInterpreter := fun _ _ => tt;
  host_HandleCommand := fun _ => evaluate;
  host_GetSelectedTarget := fun _ h => selected h;
  host_GetProcess := fun t _ => process t;
  host_SetAsync := fun _ b h =>
    {| selected := selected h; async := b; failing := failing h;
       evaluated := evaluated h; running := running h |};
  host_Continue := fun p h =>
    {| selected := selected h; async := async h; failing := failing h;
       evaluated := evaluated h; running := running h ++ [p] |}
|}.

(** Two targets of the debugger: the application, with process 1, and a
    second one, with process 2. *)
Definition MyApp : Target := {| name := "MyApp"; process := 1 |}.
Definition Helper : Target := {| name := "Helper"; process := 2 |}.

Definition ctx : SBExecutionContext := {| target := MyApp |}.

(** The sink as the host hands it over. *)
Definition sink : Return := {| error := ""; status := eReturnStatusInvalid |}.

(** The world at invocation: the result sink is object 0 of the store. *)
Definition world (sel : Target) (table : list (string * string)) : World :=
  mkWorld {| selected := sel; async := false; failing := table;
             evaluated := []; running := [] |}
          [ sink ]
          [].

Definition result : ref := 0.

(** An error table: the import of UIKit fails. *)
Definition no_UIKit : list (string * string) :=
  [ ("e -l swift -- import UIKit", "error: no such module 'UIKit'") ].

End Mock.

(** ** Tactics for the mock host

    [bounded_cases] goes through the sub-commands [j] of a bounded range and
    evaluates the mock host at each; [mock_fails_at] proves [fails_at]. *)

Ltac bounded_cases :=
  let j := fresh "j" in
  let Hj := fresh "Hj" in
  intros j Hj;
  do 5 (destruct j as [|j]; [first [lia | reflexivity]|]); lia.

Ltac mock_fails_at :=
  split; [lia|]; split; [bounded_cases|]; split; [reflexivity | discriminate].

(** ** The loop *)

Section LoopLemmas.
Context `{LLDB}.

Lemma truthy_empty (s : string) : truthy s = false <-> s = "".
Proof. destruct s; simpl; split; congruence. Qed.

Lemma truthy_nonempty (s : string) : truthy s = true <-> s <> "".
Proof. destruct s; simpl; split; congruence. Qed.

Lemma deref_lookup (r : ref) (w : World) (c : CommandReturn) :
  objects w !! r = Some c -> deref r w = c.
Proof. unfold deref. intros ->. reflexivity. Qed.

Lemma loop_calls_app i res (l1 l2 : list string) :
  loop_calls i res (l1 ++ l2) = loop_calls i res l1 ++ loop_calls i res l2.
Proof. unfold loop_calls. apply flat_map_app. Qed.

Lemma host_run_snoc i (l : list string) (cmd : string) (h : Host) (c : CommandReturn) :
  host_run i (l ++ [cmd]) h c =
  host_HandleCommand i cmd (fst (host_run i l h c)) (snd (host_run i l h c)).
Proof.
  revert h c. induction l as [|a l IH]; intros h c; simpl.
  - destruct (host_HandleCommand i cmd h c); reflexivity.
  - destruct (host_HandleCommand i a h c) as [h' c']. apply IH.
Qed.

(** The loop when no command returns an error. *)
Lemma loop_success i res result (cmds : list string) :
  forall (w : World) (c : CommandReturn),
    objects w !! res = Some c ->
    (forall j, 1 <= j <= length cmds ->
       host_GetError (snd (host_run i (take j cmds) (host w) c)) = "") ->
    for_command_in i res result cmds w =
    (false, mkWorld (fst (host_run i cmds (host w) c))
                    (<[res := snd (host_run i cmds (host w) c)]> (objects w))
                    (calls w ++ loop_calls i res cmds)).
Proof.
  induction cmds as [|cmd rest IH]; intros w c Hres Hok.
  - simpl. unfold ret. rewrite list_insert_id by exact Hres.
    rewrite app_nil_r. destruct w; reflexivity.
  - pose proof (Hok 1 ltac:(simpl; lia)) as H1. simpl in H1.
    simpl. unfold bind at 1. unfold HandleCommand.
    rewrite (deref_lookup _ _ _ Hres).
    destruct (host_HandleCommand i cmd (host w) c) as [h' c'] eqn:Hhc.
    simpl in H1.
    unfold bind at 1. unfold GetError at 1. unfold deref at 1. simpl.
    rewrite list_lookup_insert_eq by (eapply lookup_lt_Some; exact Hres).
    simpl. rewrite H1. simpl.
    rewrite (IH _ c').
    + simpl. rewrite list_insert_insert_eq. rewrite <- !app_assoc. reflexivity.
    + simpl. apply list_lookup_insert_eq. eapply lookup_lt_Some; exact Hres.
    + intros j Hj. simpl.
      specialize (Hok (S j) ltac:(simpl; lia)). simpl in Hok.
      rewrite Hhc in Hok. exact Hok.
Qed.

(** The loop when command [k] is the first to return an error. *)
Lemma loop_failure i res result (cmds : list string) :
  forall (k : nat) (w : World) (c : CommandReturn) (e : string),
    objects w !! res = Some c ->
    1 <= k <= length cmds ->
    (forall j, 1 <= j < k ->
       host_GetError (snd (host_run i (take j cmds) (host w) c)) = "") ->
    host_GetError (snd (host_run i (take k cmds) (host w) c)) = e ->
    e <> "" ->
    for_command_in i res result cmds w =
    (true,
     snd (SetError result e
            (logged (Call_GetError res)
               (mkWorld (fst (host_run i (take k cmds) (host w) c))
                        (<[res := snd (host_run i (take k cmds) (host w) c)]> (objects w))
                        (calls w ++ loop_calls i res (take k cmds)))))).
Proof.
  induction cmds as [|cmd rest IH]; intros k w c e Hres Hk Hbefore Hat He.
  - simpl in Hk. lia.
  - assert (Hlt : res < length (objects w)) by (eapply lookup_lt_Some; exact Hres).
    simpl. unfold bind at 1. unfold HandleCommand.
    rewrite (deref_lookup _ _ _ Hres).
    destruct (host_HandleCommand i cmd (host w) c) as [h' c'] eqn:Hhc.
    unfold bind at 1. unfold GetError at 1. unfold deref at 1. simpl.
    rewrite list_lookup_insert_eq by exact Hlt. simpl.
    destruct k as [|[|k]]; [lia| |].
    + (* the first command fails *)
      simpl in Hat. rewrite Hhc in Hat. simpl in Hat. subst e.
      apply truthy_nonempty in He. rewrite He.
      unfold bind at 1. unfold GetError at 1. unfold deref at 1. simpl.
      rewrite list_lookup_insert_eq by exact Hlt. simpl.
      unfold bind, SetError, ret, logged, deref. simpl.
      rewrite Hhc. simpl. rewrite <- !app_assoc. reflexivity.
    + (* the first command succeeds *)
      pose proof (Hbefore 1 ltac:(lia)) as H1. simpl in H1.
      rewrite Hhc in H1. simpl in H1. rewrite H1. simpl.
      rewrite (IH (S k) _ c' e).
      * simpl. rewrite Hhc. rewrite list_insert_insert_eq.
        unfold SetError, logged, deref. simpl.
        rewrite <- !app_assoc. reflexivity.
      * simpl. apply list_lookup_insert_eq. exact Hlt.
      * simpl in Hk. lia.
      * intros j Hj. specialize (Hbefore (S j) ltac:(lia)).
        simpl in Hbefore. rewrite Hhc in Hbefore. exact Hbefore.
      * simpl in Hat. rewrite Hhc in Hat. exact Hat.
      * exact He.
Qed.

(** The calls of the loop, whatever the host answers: it goes through all the
    commands, or it stops after one of them with a [SetError]. *)
Lemma submitted_loop_calls i res (cmds : list string) :
  submitted (loop_calls i res cmds) = cmds.
Proof. induction cmds as [|c l IH]; simpl; [reflexivity|]. f_equal. exact IH. Qed.

Lemma handed_loop_calls i res (cmds : list string) :
  handed (loop_calls i res cmds) = replicate (length cmds) res.
Proof. induction cmds as [|c l IH]; simpl; [reflexivity|]. f_equal. exact IH. Qed.

Lemma resumed_loop_calls i res (cmds : list string) :
  resumed (loop_calls i res cmds) = [].
Proof. induction cmds as [|c l IH]; simpl; [reflexivity|]. exact IH. Qed.

Lemma async_set_loop_calls i res (cmds : list string) :
  async_set (loop_calls i res cmds) = [].
Proof. induction cmds as [|c l IH]; simpl; [reflexivity|]. exact IH. Qed.

Lemma errors_set_loop_calls i res (cmds : list string) :
  errors_set (loop_calls i res cmds) = [].
Proof. induction cmds as [|c l IH]; simpl; [reflexivity|]. exact IH. Qed.

Lemma statuses_set_loop_calls i res (cmds : list string) :
  statuses_set (loop_calls i res cmds) = [].
Proof. induction cmds as [|c l IH]; simpl; [reflexivity|]. exact IH. Qed.

Lemma allocated_loop_calls i res (cmds : list string) :
  allocated (loop_calls i res cmds) = [].
Proof. induction cmds as [|c l IH]; simpl; [reflexivity|]. exact IH. Qed.

End LoopLemmas.

(** ** What an invocation does *)

Section HandlerLemmas.
Context `{LLDB}.
Variables (debugger : SBDebugger) (expression : string) (ctx : SBExecutionContext)
          (result : ref) (internal_dict : PyDict) (w : World).

Local Abbreviation Run := (run debugger expression ctx result internal_dict w).
Local Abbreviation Trace := (trace debugger expression ctx result internal_dict w).
Local Abbreviation Commands := (the_commands expression ctx w).
Local Abbreviation Interpreter := (the_interpreter debugger w).
Local Abbreviation Res := (the_res w).
Local Abbreviation After := (after debugger expression ctx w).
Local Abbreviation ErrorOf := (error_of debugger expression ctx w).
Local Abbreviation FailsAt := (fails_at debugger expression ctx w).
Local Abbreviation AllSucceed := (all_succeed debugger expression ctx w).

Lemma length_the_commands : length Commands = 4.
Proof. reflexivity. Qed.

Lemma take_the_commands : take 4 Commands = Commands.
Proof. reflexivity. Qed.

(** The store once the handler has created its object, with the object
    overwritten: only the last cell changes. *)
Lemma insert_the_res (c : CommandReturn) :
  <[Res := c]> (objects w ++ [host_SBCommandReturnObject]) = objects w ++ [c].
Proof.
  unfold the_res. rewrite insert_app_r_alt by lia.
  rewrite Nat.sub_diag. reflexivity.
Qed.

(** The handler around its loop. *)
Lemma run_unfold :
  let w0 := mkWorld (host w) (objects w ++ [host_SBCommandReturnObject])
                    (calls w ++ [Call_SBCommandReturnObject Res;
                                 Call_GetCommandInterpreter debugger]) in
  let out := for_command_in Interpreter Res result Commands w0 in
  Run =
  if fst out then snd out
  else
    let t := host_GetSelectedTarget debugger (host (snd out)) in
    let p := host_GetProcess t (host (snd out)) in
    mkWorld (host_Continue p (host_SetAsync debugger true (host (snd out))))
            (<[result := host_SetStatus eReturnStatusSuccessContinuingNoResult
                           (deref result (snd out))]> (objects (snd out)))
            (calls (snd out)
             ++ [Call_GetSelectedTarget debugger; Call_GetProcess t;
                 Call_SetStatus result eReturnStatusSuccessContinuingNoResult;
                 Call_SetAsync debugger true; Call_Continue p]).
Proof.
  intros w0 out. unfold run, handle_tdump_command.
  unfold bind at 1. unfold SBCommandReturnObject.
  unfold bind at 1. unfold GetCommandInterpreter, logged. cbn [host objects calls].
  unfold bind at 1. unfold str at 1. cbn [host objects calls].
  unfold bind at 1. rewrite <- app_assoc. cbn [app].
  change (for_command_in _ _ _ _ _) with out.
  destruct out as [[|] w4]; cbn [fst snd]; [reflexivity|].
  unfold bind, GetSelectedTarget, GetProcess, SetStatus, SetAsync, Continue, logged, deref.
  cbn [host objects calls fst snd]. rewrite <- !app_assoc. reflexivity.
Qed.

Lemma the_res_fresh :
  (objects w ++ [host_SBCommandReturnObject]) !! Res = Some host_SBCommandReturnObject.
Proof.
  unfold the_res. rewrite lookup_app_r by lia.
  rewrite Nat.sub_diag. reflexivity.
Qed.

Lemma run_success : AllSucceed -> Run = success_world debugger expression ctx result w.
Proof.
  intros Hok. rewrite run_unfold. cbv zeta.
  rewrite (loop_success _ _ _ _ _ host_SBCommandReturnObject).
  - cbn [fst snd host objects calls]. unfold deref. cbn [objects].
    rewrite !insert_the_res.
    unfold success_world, success_calls, objects_after, selected_process, selected_target.
    rewrite <- !app_assoc. reflexivity.
  - apply the_res_fresh.
  - intros j Hj. apply (Hok j). exact Hj.
Qed.

Lemma run_failure (k : nat) (e : string) :
  FailsAt k e -> Run = failure_world debugger expression ctx result w k e.
Proof.
  intros (Hk & Hbefore & Hat & He). rewrite run_unfold. cbv zeta.
  rewrite (loop_failure _ _ _ _ k _ host_SBCommandReturnObject e).
  - cbn [fst snd]. unfold SetError, logged, deref. cbn [fst snd host objects calls].
    rewrite !insert_the_res.
    unfold failure_world, failure_calls, objects_after.
    rewrite <- !app_assoc. reflexivity.
  - apply the_res_fresh.
  - exact Hk.
  - exact Hbefore.
  - exact Hat.
  - exact He.
Qed.

(** Every invocation is of one of the two kinds. *)
Lemma outcome_cases : AllSucceed \/ exists k e, FailsAt k e.
Proof.
  destruct (truthy (ErrorOf 1)) eqn:H1.
  { right. exists 1, (ErrorOf 1). split; [lia|]. split; [intros; lia|].
    split; [reflexivity|]. apply truthy_nonempty. exact H1. }
  destruct (truthy (ErrorOf 2)) eqn:H2.
  { right. exists 2, (ErrorOf 2). split; [lia|]. apply truthy_empty in H1.
    split; [intros j Hj; assert (j = 1) as -> by lia; exact H1|].
    split; [reflexivity|]. apply truthy_nonempty. exact H2. }
  destruct (truthy (ErrorOf 3)) eqn:H3.
  { right. exists 3, (ErrorOf 3). split; [lia|].
    apply truthy_empty in H1. apply truthy_empty in H2.
    split; [intros j Hj; assert (j = 1 \/ j = 2) as [-> | ->] by lia; assumption|].
    split; [reflexivity|]. apply truthy_nonempty. exact H3. }
  destruct (truthy (ErrorOf 4)) eqn:H4.
  { right. exists 4, (ErrorOf 4). split; [lia|].
    apply truthy_empty in H1. apply truthy_empty in H2. apply truthy_empty in H3.
    split; [intros j Hj; assert (j = 1 \/ j = 2 \/ j = 3) as [-> | [-> | ->]] by lia;
            assumption|].
    split; [reflexivity|]. apply truthy_nonempty. exact H4. }
  left. apply truthy_empty in H1. apply truthy_empty in H2.
  apply truthy_empty in H3. apply truthy_empty in H4.
  intros j Hj. assert (j = 1 \/ j = 2 \/ j = 3 \/ j = 4) as [-> | [-> | [-> | ->]]] by lia;
    assumption.
Qed.

Lemma trace_success : AllSucceed -> Trace = success_calls debugger expression ctx result w.
Proof.
  intros Hok. unfold trace. rewrite (run_success Hok). unfold success_world.
  cbn [calls]. apply drop_app_length.
Qed.

Lemma trace_failure (k : nat) (e : string) :
  FailsAt k e -> Trace = failure_calls debugger expression ctx result w k e.
Proof.
  intros Hf. unfold trace. rewrite (run_failure _ _ Hf). unfold failure_world.
  cbn [calls]. apply drop_app_length.
Qed.

(** *** The two kinds of log, read *)

Lemma submitted_success :
  submitted (success_calls debugger expression ctx result w) = Commands.
Proof.
  unfold success_calls, submitted. rewrite !omap_app.
  fold (submitted (loop_calls Interpreter Res Commands)).
  rewrite submitted_loop_calls. cbn [omap app]. apply app_nil_r.
Qed.

Lemma submitted_failure (k : nat) (e : string) :
  submitted (failure_calls debugger expression ctx result w k e) = take k Commands.
Proof.
  unfold failure_calls, submitted. rewrite !omap_app.
  fold (submitted (loop_calls Interpreter Res (take k Commands))).
  rewrite submitted_loop_calls. cbn [omap app]. apply app_nil_r.
Qed.

Lemma resumed_success :
  resumed (success_calls debugger expression ctx result w) =
  [selected_process debugger expression ctx w].
Proof.
  unfold success_calls, resumed. rewrite !omap_app.
  fold (resumed (loop_calls Interpreter Res Commands)).
  rewrite resumed_loop_calls. reflexivity.
Qed.

Lemma resumed_failure (k : nat) (e : string) :
  resumed (failure_calls debugger expression ctx result w k e) = [].
Proof.
  unfold failure_calls, resumed. rewrite !omap_app.
  fold (resumed (loop_calls Interpreter Res (take k Commands))).
  rewrite resumed_loop_calls. reflexivity.
Qed.

Lemma async_set_success :
  async_set (success_calls debugger expression ctx result w) = [true].
Proof.
  unfold success_calls, async_set. rewrite !omap_app.
  fold (async_set (loop_calls Interpreter Res Commands)).
  rewrite async_set_loop_calls. reflexivity.
Qed.

Lemma async_set_failure (k : nat) (e : string) :
  async_set (failure_calls debugger expression ctx result w k e) = [].
Proof.
  unfold failure_calls, async_set. rewrite !omap_app.
  fold (async_set (loop_calls Interpreter Res (take k Commands))).
  rewrite async_set_loop_calls. reflexivity.
Qed.

Lemma statuses_set_success :
  statuses_set (success_calls debugger expression ctx result w) =
  [(result, eReturnStatusSuccessContinuingNoResult)].
Proof.
  unfold success_calls, statuses_set. rewrite !omap_app.
  fold (statuses_set (loop_calls Interpreter Res Commands)).
  rewrite statuses_set_loop_calls. reflexivity.
Qed.

Lemma statuses_set_failure (k : nat) (e : string) :
  statuses_set (failure_calls debugger expression ctx result w k e) = [].
Proof.
  unfold failure_calls, statuses_set. rewrite !omap_app.
  fold (statuses_set (loop_calls Interpreter Res (take k Commands))).
  rewrite statuses_set_loop_calls. reflexivity.
Qed.

Lemma errors_set_success :
  errors_set (success_calls debugger expression ctx result w) = [].
Proof.
  unfold success_calls, errors_set. rewrite !omap_app.
  fold (errors_set (loop_calls Interpreter Res Commands)).
  rewrite errors_set_loop_calls. reflexivity.
Qed.

Lemma errors_set_failure (k : nat) (e : string) :
  errors_set (failure_calls debugger expression ctx result w k e) = [(result, e)].
Proof.
  unfold failure_calls, errors_set. rewrite !omap_app.
  fold (errors_set (loop_calls Interpreter Res (take k Commands))).
  rewrite errors_set_loop_calls. reflexivity.
Qed.

Lemma allocated_success :
  allocated (success_calls debugger expression ctx result w) = [Res].
Proof.
  unfold success_calls, allocated. rewrite !omap_app.
  fold (allocated (loop_calls Interpreter Res Commands)).
  rewrite allocated_loop_calls. reflexivity.
Qed.

Lemma allocated_failure (k : nat) (e : string) :
  allocated (failure_calls debugger expression ctx result w k e) = [Res].
Proof.
  unfold failure_calls, allocated. rewrite !omap_app.
  fold (allocated (loop_calls Interpreter Res (take k Commands))).
  rewrite allocated_loop_calls. reflexivity.
Qed.

Lemma handed_success :
  handed (success_calls debugger expression ctx result w) = replicate 4 Res.
Proof.
  unfold success_calls, handed. rewrite !omap_app.
  fold (handed (loop_calls Interpreter Res Commands)).
  rewrite handed_loop_calls. reflexivity.
Qed.

Lemma handed_failure (k : nat) (e : string) :
  1 <= k <= 4 ->
  handed (failure_calls debugger expression ctx result w k e) = replicate k Res.
Proof.
  intros Hk. unfold failure_calls, handed. rewrite !omap_app.
  fold (handed (loop_calls Interpreter Res (take k Commands))).
  rewrite handed_loop_calls. rewrite length_take, length_the_commands.
  replace (k `min` 4) with k by lia. cbn [omap app]. apply app_nil_r.
Qed.

(** The result sink is an object of the store the handler was called with,
    so it is not the object the handler creates. *)
Lemma result_not_res (r0 : CommandReturn) : objects w !! result = Some r0 -> result <> Res.
Proof. intros Hr. apply lookup_lt_Some in Hr. unfold the_res. lia. Qed.

Lemma result_after (k : nat) (r0 : CommandReturn) :
  objects w !! result = Some r0 ->
  objects_after debugger expression ctx w k !! result = Some r0.
Proof. intros Hr. unfold objects_after. apply lookup_app_l_Some. exact Hr. Qed.

Lemma result_success (r0 : CommandReturn) :
  objects w !! result = Some r0 ->
  AllSucceed ->
  objects Run =
  <[result := host_SetStatus eReturnStatusSuccessContinuingNoResult r0]> (objects w)
  ++ [snd (After 4)].
Proof.
  intros Hr Hok. rewrite (run_success Hok). unfold success_world. cbn [objects].
  rewrite (result_after 4 r0 Hr). unfold objects_after.
  rewrite insert_app_l by (eapply lookup_lt_Some; exact Hr). reflexivity.
Qed.

Lemma result_failure (k : nat) (e : string) (r0 : CommandReturn) :
  objects w !! result = Some r0 ->
  FailsAt k e ->
  objects Run = <[result := host_SetError e r0]> (objects w) ++ [snd (After k)].
Proof.
  intros Hr Hf. rewrite (run_failure _ _ Hf). unfold failure_world. cbn [objects].
  rewrite (result_after k r0 Hr). unfold objects_after.
  rewrite insert_app_l by (eapply lookup_lt_Some; exact Hr). reflexivity.
Qed.

(** Reading the sink, and the object the handler created, in a store of that
    form. *)
Lemma lookup_result (r0 c c' : CommandReturn) :
  objects w !! result = Some r0 ->
  (<[result := c]> (objects w) ++ [c']) !! result = Some c.
Proof.
  intros Hr. apply lookup_app_l_Some. apply list_lookup_insert_eq.
  eapply lookup_lt_Some. exact Hr.
Qed.

Lemma lookup_res (c c' : CommandReturn) :
  (<[result := c]> (objects w) ++ [c']) !! Res = Some c'.
Proof.
  unfold the_res. rewrite lookup_app_r by (rewrite length_insert; lia).
  rewrite length_insert, Nat.sub_diag. reflexivity.
Qed.

End HandlerLemmas.

(** ** The command strings *)

Lemma append_empty_r (s : string) : s +:+ "" = s.
Proof.
  induction s as [|a s IH]; [reflexivity|].
  change (String a (s +:+ "") = String a s). rewrite IH. reflexivity.
Qed.

Lemma format_import (name : string) :
  format "e -l swift -- import {}" name = "e -l swift -- import " +:+ name.
Proof.
  change (format "e -l swift -- import {}" name)
    with ("e -l swift -- import " +:+ (name +:+ "")).
  rewrite append_empty_r. reflexivity.
Qed.

Lemma format_present (expression : string) :
  format "e -l swift -- TreeDumpDebugger.present({})" expression =
  "e -l swift -- TreeDumpDebugger.present(" +:+ expression +:+ ")".
Proof. reflexivity. Qed.

Lemma commands_eq (name expression : string) :
  commands name expression =
  [ "e -l swift -- import " +:+ name;
    "e -l swift -- import UIKit";
    "e -l swift -- TreeDumpDebugger.present(" +:+ expression +:+ ")";
    "e -l swift -- CATransaction.flush()" ].
Proof. unfold commands. rewrite format_import, format_present. reflexivity. Qed.

Lemma quotes_app (s t : string) : quotes (s +:+ t) = quotes s + quotes t.
Proof.
  induction s as [|a s IH]; [reflexivity|].
  change (String a s +:+ t) with (String a (s +:+ t)).
  cbn [quotes]. rewrite IH. lia.
Qed.

(** ** The claims *)

Section Claims.
Context `{LLDB}.
Variables (debugger : SBDebugger) (expression : string) (ctx : SBExecutionContext)
          (result : ref) (internal_dict : PyDict) (w : World).

Local Abbreviation Run := (run debugger expression ctx result internal_dict w).
Local Abbreviation Trace := (trace debugger expression ctx result internal_dict w).
Local Abbreviation Commands := (the_commands expression ctx w).
Local Abbreviation Interpreter := (the_interpreter debugger w).
Local Abbreviation Res := (the_res w).
Local Abbreviation After := (after debugger expression ctx w).
Local Abbreviation ErrorOf := (error_of debugger expression ctx w).
Local Abbreviation FailsAt := (fails_at debugger expression ctx w).
Local Abbreviation AllSucceed := (all_succeed debugger expression ctx w).

(** The command strings an invocation submits are the first [n] of its list,
    for some [n] from 1 to 4. *)
Lemma submitted_take : exists n, 1 <= n <= 4 /\ submitted Trace = take n Commands.
Proof.
  destruct (outcome_cases debugger expression ctx w) as [Hok | (k & e & Hf)].
  - exists 4. split; [lia|].
    rewrite (trace_success debugger expression ctx result internal_dict w Hok).
    rewrite submitted_success. reflexivity.
  - exists k. split; [apply Hf|].
    rewrite (trace_failure debugger expression ctx result internal_dict w k e Hf).
    apply submitted_failure.
Qed.

(** C1. Every invocation submits its sub-commands in one fixed order: the
    import of the module named after the target of the context, the import of
    UIKit, the presentation call around the user's expression, the transaction
    flush. What is submitted is the first [n] of these four, for some [n] from
    1 to 4, so no sub-command is submitted out of this order. *)
Theorem C1_fixed_order :
  exists n, 1 <= n <= 4 /\
    submitted Trace =
    take n [ "e -l swift -- import " +:+ host_str (target ctx) (host w);
             "e -l swift -- import UIKit";
             "e -l swift -- TreeDumpDebugger.present(" +:+ expression +:+ ")";
             "e -l swift -- CATransaction.flush()" ].
Proof.
  destruct submitted_take as (n & Hn & Hs). exists n. split; [exact Hn|].
  rewrite Hs. unfold the_commands. rewrite commands_eq. reflexivity.
Qed.

(** C2. If sub-command [k], for [k] from 1 to 4, is the one that returns an
    error, then exactly the first [k] sub-commands are submitted (none of
    [k+1] to 4), the one [SetError] call of the invocation writes the text
    sub-command [k] returned into the result sink, which then is the sink the
    handler was given with that error set, and [Continue] is never called: the
    host is left as sub-command [k] left it. *)
Theorem C2_first_error_stops (k : nat) (e : string) (r0 : CommandReturn) :
  objects w !! result = Some r0 ->
  FailsAt k e ->
  submitted Trace = take k Commands /\
  errors_set Trace = [(result, ErrorOf k)] /\
  objects Run !! result = Some (host_SetError (ErrorOf k) r0) /\
  resumed Trace = [] /\
  host Run = fst (After k).
Proof.
  intros Hr Hf.
  assert (He : ErrorOf k = e) by apply Hf. rewrite He.
  rewrite (trace_failure debugger expression ctx result internal_dict w k e Hf).
  repeat apply conj.
  - apply submitted_failure.
  - apply errors_set_failure.
  - rewrite (result_failure debugger expression ctx result internal_dict w k e r0 Hr Hf).
    apply (lookup_result result w r0 _ _ Hr).
  - apply resumed_failure.
  - rewrite (run_failure debugger expression ctx result internal_dict w k e Hf).
    reflexivity.
Qed.

(** C3. If all four sub-commands succeed, [Continue] is called exactly once,
    [SetAsync(True)] exactly once, and the result sink is the sink the handler
    was given with the status set to success-continuing-no-result: the one
    [SetStatus] call sets that status, and [SetError] is never called. *)
Theorem C3_success_resumes_once (r0 : CommandReturn) :
  objects w !! result = Some r0 ->
  AllSucceed ->
  length (resumed Trace) = 1 /\
  async_set Trace = [true] /\
  statuses_set Trace = [(result, eReturnStatusSuccessContinuingNoResult)] /\
  errors_set Trace = [] /\
  objects Run !! result =
    Some (host_SetStatus eReturnStatusSuccessContinuingNoResult r0).
Proof.
  intros Hr Hok.
  rewrite (trace_success debugger expression ctx result internal_dict w Hok).
  repeat apply conj.
  - rewrite resumed_success. reflexivity.
  - apply async_set_success.
  - apply statuses_set_success.
  - apply errors_set_success.
  - rewrite (result_success debugger expression ctx result internal_dict w r0 Hr Hok).
    apply (lookup_result result w r0 _ _ Hr).
Qed.

(** C4, as amended. With the expression [self.view] and a target rendered
    [MyApp], when all four sub-commands succeed the strings submitted are the
    four expression commands below, each with its [e -l swift --] prefix; no
    [SetError] is called, so a sink that came without an error and whose
    [SetStatus] leaves the error text alone carries no error; and [Continue]
    is called once. *)
Theorem C4_scenario_prefixed (r0 : CommandReturn) :
  host_str (target ctx) (host w) = "MyApp" ->
  expression = "self.view" ->
  objects w !! result = Some r0 ->
  host_GetError r0 = "" ->
  (forall s c, host_GetError (host_SetStatus s c) = host_GetError c) ->
  AllSucceed ->
  submitted Trace =
    [ "e -l swift -- import MyApp";
      "e -l swift -- import UIKit";
      "e -l swift -- TreeDumpDebugger.present(self.view)";
      "e -l swift -- CATransaction.flush()" ] /\
  errors_set Trace = [] /\
  host_GetError (deref result Run) = "" /\
  length (resumed Trace) = 1.
Proof.
  intros Hname Hexpr Hr Hr0 Hstatus Hok.
  rewrite (trace_success debugger expression ctx result internal_dict w Hok).
  repeat apply conj.
  - rewrite submitted_success. unfold the_commands.
    rewrite Hname, Hexpr. reflexivity.
  - apply errors_set_success.
  - unfold deref.
    rewrite (result_success debugger expression ctx result internal_dict w r0 Hr Hok).
    rewrite (lookup_result result w r0 _ _ Hr). simpl.
    rewrite Hstatus. exact Hr0.
  - rewrite resumed_success. reflexivity.
Qed.

(** The third sub-command is submitted exactly when the first two returned no
    error, and then it is the fixed text around the expression as it is. *)
Lemma third_submitted :
  (ErrorOf 1 = "" /\ ErrorOf 2 = "" /\
   submitted Trace !! 2 =
     Some ("e -l swift -- TreeDumpDebugger.present(" +:+ expression +:+ ")")) \/
  ((ErrorOf 1 <> "" \/ ErrorOf 2 <> "") /\ submitted Trace !! 2 = None).
Proof.
  destruct (outcome_cases debugger expression ctx w) as [Hok | (k & e & Hf)].
  - left. split; [apply Hok; lia|]. split; [apply Hok; lia|].
    rewrite (trace_success debugger expression ctx result internal_dict w Hok).
    rewrite submitted_success. reflexivity.
  - rewrite (trace_failure debugger expression ctx result internal_dict w k e Hf).
    rewrite submitted_failure.
    destruct Hf as (Hk & Hbefore & Hat & He).
    destruct k as [|[|[|[|[|k]]]]]; try lia.
    + right. split; [|reflexivity]. left. rewrite Hat. exact He.
    + right. split; [|reflexivity]. right. rewrite Hat. exact He.
    + left. split; [apply Hbefore; lia|]. split; [apply Hbefore; lia|]. reflexivity.
    + left. split; [apply Hbefore; lia|]. split; [apply Hbefore; lia|]. reflexivity.
Qed.

(** C6. An invocation either fails, and then calls none of [SetStatus],
    [SetAsync] and [Continue]; or all its sub-commands succeed, and then its
    last three calls are [SetStatus] on the sink, [SetAsync(True)] and
    [Continue], in this order, with none of the three among the calls before
    them. So [Continue] is never called before [SetAsync]. *)
Theorem C6_status_async_continue :
  (exists k e, FailsAt k e /\
     statuses_set Trace = [] /\ async_set Trace = [] /\ resumed Trace = []) \/
  (AllSucceed /\
   exists (pre : list Call) (p : SBProcess),
     Trace = pre ++ [Call_SetStatus result eReturnStatusSuccessContinuingNoResult;
                     Call_SetAsync debugger true;
                     Call_Continue p] /\
     statuses_set pre = [] /\ async_set pre = [] /\ resumed pre = []).
Proof.
  destruct (outcome_cases debugger expression ctx w) as [Hok | (k & e & Hf)].
  - right. split; [exact Hok|].
    rewrite (trace_success debugger expression ctx result internal_dict w Hok).
    exists ([Call_SBCommandReturnObject Res; Call_GetCommandInterpreter debugger]
            ++ loop_calls Interpreter Res Commands
            ++ [Call_GetSelectedTarget debugger;
                Call_GetProcess (selected_target debugger expression ctx w)]),
           (selected_process debugger expression ctx w).
    repeat apply conj.
    + unfold success_calls. rewrite <- !app_assoc. reflexivity.
    + unfold statuses_set. rewrite !omap_app.
      fold (statuses_set (loop_calls Interpreter Res Commands)).
      rewrite statuses_set_loop_calls. reflexivity.
    + unfold async_set. rewrite !omap_app.
      fold (async_set (loop_calls Interpreter Res Commands)).
      rewrite async_set_loop_calls. reflexivity.
    + unfold resumed. rewrite !omap_app.
      fold (resumed (loop_calls Interpreter Res Commands)).
      rewrite resumed_loop_calls. reflexivity.
  - left. exists k, e. split; [exact Hf|].
    rewrite (trace_failure debugger expression ctx result internal_dict w k e Hf).
    repeat apply conj.
    + apply statuses_set_failure.
    + apply async_set_failure.
    + apply resumed_failure.
Qed.

Lemma writes_loop_calls_other (r res : ref) (cmds : list string) :
  r <> res -> List.filter (writes r) (loop_calls Interpreter res cmds) = [].
Proof.
  intros Hne. induction cmds as [|c l IH]; [reflexivity|].
  cbn [loop_calls flat_map app List.filter writes].
  apply Nat.eqb_neq in Hne. rewrite Hne. exact IH.
Qed.

Lemma writes_loop_calls_same (res : ref) (cmds : list string) :
  List.filter (writes res) (loop_calls Interpreter res cmds) =
  map (fun command => Call_HandleCommand Interpreter command res) cmds.
Proof.
  induction cmds as [|c l IH]; [reflexivity|].
  cbn [loop_calls flat_map app List.filter writes map].
  rewrite Nat.eqb_refl. f_equal. exact IH.
Qed.

(** C7. On a failing invocation nothing is undone and nothing else is
    changed: the first [k] sub-commands stay submitted and the host is left as
    sub-command [k] left it, [SetAsync], [SetStatus] and [Continue] are never
    called, the one call that writes the result sink is the [SetError] with
    the error of sub-command [k], which is the last call of the invocation, and
    the store is the store the handler was given with that one write, followed
    by the object the handler created. *)
Theorem C7_failure_frame (k : nat) (e : string) (r0 : CommandReturn) :
  objects w !! result = Some r0 ->
  FailsAt k e ->
  submitted Trace = take k Commands /\
  host Run = fst (After k) /\
  async_set Trace = [] /\
  statuses_set Trace = [] /\
  resumed Trace = [] /\
  List.filter (writes result) Trace = [Call_SetError result (ErrorOf k)] /\
  last Trace = Some (Call_SetError result (ErrorOf k)) /\
  objects Run = <[result := host_SetError (ErrorOf k) r0]> (objects w) ++ [snd (After k)].
Proof.
  intros Hr Hf.
  assert (He : ErrorOf k = e) by apply Hf. rewrite He.
  rewrite (trace_failure debugger expression ctx result internal_dict w k e Hf).
  repeat apply conj.
  - apply submitted_failure.
  - rewrite (run_failure debugger expression ctx result internal_dict w k e Hf).
    reflexivity.
  - apply async_set_failure.
  - apply statuses_set_failure.
  - apply resumed_failure.
  - unfold failure_calls. rewrite !List.filter_app.
    rewrite writes_loop_calls_other by exact (result_not_res result w r0 Hr).
    cbn [List.filter writes app]. rewrite Nat.eqb_refl. reflexivity.
  - unfold failure_calls.
    change [Call_GetError Res; Call_SetError result e]
      with ([Call_GetError Res] ++ [Call_SetError result e]).
    rewrite !app_assoc. apply last_snoc.
  - apply (result_failure debugger expression ctx result internal_dict w k e r0 Hr Hf).
Qed.

(** C8. When all four sub-commands succeed, the one process resumed is the
    process of the target the debugger has selected once the sub-commands ran:
    the handler asks the debugger for its selected target, asks that target
    for its process, and calls [Continue] on it. The target of the context
    plays no part: if its process is another one, it is not resumed. *)
Theorem C8_resumes_selected_target :
  AllSucceed ->
  resumed Trace =
    [host_GetProcess (host_GetSelectedTarget debugger (fst (After 4))) (fst (After 4))] /\
  (exists pre : list Call,
     Trace = pre ++ [Call_GetSelectedTarget debugger;
                     Call_GetProcess (host_GetSelectedTarget debugger (fst (After 4)));
                     Call_SetStatus result eReturnStatusSuccessContinuingNoResult;
                     Call_SetAsync debugger true;
                     Call_Continue
                       (host_GetProcess (host_GetSelectedTarget debugger (fst (After 4)))
                                        (fst (After 4)))]) /\
  (host_GetProcess (target ctx) (fst (After 4)) <>
   host_GetProcess (host_GetSelectedTarget debugger (fst (After 4))) (fst (After 4)) ->
   host_GetProcess (target ctx) (fst (After 4)) ∉ resumed Trace).
Proof.
  intros Hok.
  rewrite (trace_success debugger expression ctx result internal_dict w Hok).
  rewrite resumed_success.
  repeat apply conj.
  - reflexivity.
  - exists ([Call_SBCommandReturnObject Res; Call_GetCommandInterpreter debugger]
            ++ loop_calls Interpreter Res Commands).
    unfold success_calls. rewrite <- !app_assoc. reflexivity.
  - intros Hne Hin. apply list_elem_of_singleton in Hin. exact (Hne Hin).
Qed.

Lemma after_S (j : nat) (command : string) :
  Commands !! j = Some command ->
  After (S j) = host_HandleCommand Interpreter command (fst (After j)) (snd (After j)).
Proof.
  intros Hj. unfold after. rewrite (take_S_r _ _ _ Hj). apply host_run_snoc.
Qed.

(** C9. An invocation creates one command-return object and hands that object
    to every [HandleCommand] it calls. Between the submissions nothing else
    writes the object: sub-command [j+1] finds it as sub-command [j] left it,
    the first finds it new. After [n] submissions the object is in the state
    the [n]-th left it in, and the handler went on or stopped by the error
    text that state holds: empty after each of the first [n-1], and after the
    [n]-th either empty, with [n] being 4, or the text handed to [SetError]. *)
Theorem C9_one_shared_object (r0 : CommandReturn) :
  objects w !! result = Some r0 ->
  allocated Trace = [Res] /\
  length (objects Run) = S (length (objects w)) /\
  After 0 = (host w, host_SBCommandReturnObject) /\
  (forall j command, Commands !! j = Some command ->
     After (S j) = host_HandleCommand Interpreter command (fst (After j)) (snd (After j))) /\
  exists n, 1 <= n <= 4 /\
    handed Trace = replicate n Res /\
    List.filter (writes Res) Trace =
      map (fun command => Call_HandleCommand Interpreter command Res) (take n Commands) /\
    objects Run !! Res = Some (snd (After n)) /\
    (forall j, 1 <= j < n -> ErrorOf j = "") /\
    ((n = 4 /\ ErrorOf 4 = "" /\ errors_set Trace = []) \/
     (ErrorOf n <> "" /\ errors_set Trace = [(result, ErrorOf n)])).
Proof.
  intros Hr.
  assert (Hne : Res <> result).
  { intros Heq. symmetry in Heq. exact (result_not_res result w r0 Hr Heq). }
  apply Nat.eqb_neq in Hne.
  destruct (outcome_cases debugger expression ctx w) as [Hok | (k & e & Hf)].
  - rewrite (trace_success debugger expression ctx result internal_dict w Hok).
    rewrite (result_success debugger expression ctx result internal_dict w r0 Hr Hok).
    repeat apply conj.
    + apply allocated_success.
    + rewrite length_app, length_insert. cbn [length]. lia.
    + reflexivity.
    + apply after_S.
    + exists 4. repeat apply conj; try lia.
      * apply handed_success.
      * unfold success_calls. rewrite !List.filter_app.
        rewrite writes_loop_calls_same.
        cbn [List.filter writes app]. rewrite Hne. rewrite app_nil_r. reflexivity.
      * apply lookup_res.
      * intros j Hj. apply Hok. lia.
      * left. repeat apply conj; [reflexivity | apply Hok; lia | apply errors_set_success].
  - assert (He : ErrorOf k = e) by apply Hf.
    rewrite (trace_failure debugger expression ctx result internal_dict w k e Hf).
    rewrite (result_failure debugger expression ctx result internal_dict w k e r0 Hr Hf).
    repeat apply conj.
    + apply allocated_failure.
    + rewrite length_app, length_insert. cbn [length]. lia.
    + reflexivity.
    + apply after_S.
    + exists k. repeat apply conj; try apply Hf.
      * apply handed_failure. apply Hf.
      * unfold failure_calls. rewrite !List.filter_app.
        rewrite writes_loop_calls_same.
        cbn [List.filter writes app]. rewrite Hne. rewrite app_nil_r. reflexivity.
      * apply lookup_res.
      * right. rewrite He. split; [apply Hf | apply errors_set_failure].
Qed.

End Claims.

(** C5. Whatever the expression is, the third string of the list is the
    expression between the fixed text [TreeDumpDebugger.present(] and [)],
    character for character, and the handler submits it as soon as the first
    two sub-commands returned no error: it is the third command submitted
    then, and no third command is submitted only when one of the first two
    returned an error. Nothing looks at the expression before: no quote is
    added, removed or escaped, so the command has as many quotes as the
    expression and its quotes pair up only if those of the expression do. In
    particular the expression made of one quote is submitted, under the same
    condition, as a command holding a quote that nothing closes. *)
Theorem C5_raw_interpolation `{LLDB}
    (debugger : SBDebugger) (expression : string) (ctx : SBExecutionContext)
    (result : ref) (internal_dict : PyDict) (w : World) :
  the_commands expression ctx w !! 2 =
    Some ("e -l swift -- TreeDumpDebugger.present(" +:+ expression +:+ ")") /\
  ((error_of debugger expression ctx w 1 = "" /\
    error_of debugger expression ctx w 2 = "" /\
    submitted (trace debugger expression ctx result internal_dict w) !! 2 =
      Some ("e -l swift -- TreeDumpDebugger.present(" +:+ expression +:+ ")")) \/
   ((error_of debugger expression ctx w 1 <> "" \/
     error_of debugger expression ctx w 2 <> "") /\
    submitted (trace debugger expression ctx result internal_dict w) !! 2 = None)) /\
  quotes (format "e -l swift -- TreeDumpDebugger.present({})" expression) =
    quotes expression /\
  quotes_balanced (format "e -l swift -- TreeDumpDebugger.present({})" expression) =
    quotes_balanced expression /\
  exists q : string,
    quotes q = 1 /\
    quotes_balanced "e -l swift -- TreeDumpDebugger.present(')" = false /\
    ((error_of debugger q ctx w 1 = "" /\
      error_of debugger q ctx w 2 = "" /\
      submitted (trace debugger q ctx result internal_dict w) !! 2 =
        Some "e -l swift -- TreeDumpDebugger.present(')") \/
     ((error_of debugger q ctx w 1 <> "" \/ error_of debugger q ctx w 2 <> "") /\
      submitted (trace debugger q ctx result internal_dict w) !! 2 = None)).
Proof.
  assert (Hq : quotes (format "e -l swift -- TreeDumpDebugger.present({})" expression) =
               quotes expression).
  { rewrite format_present, !quotes_app.
    replace (quotes "e -l swift -- TreeDumpDebugger.present(") with 0 by reflexivity.
    replace (quotes ")") with 0 by reflexivity. lia. }
  repeat apply conj.
  - reflexivity.
  - apply third_submitted.
  - exact Hq.
  - unfold quotes_balanced. rewrite Hq. reflexivity.
  - exists "'". repeat apply conj.
    + reflexivity.
    + reflexivity.
    + apply (third_submitted debugger "'" ctx result internal_dict w).
Qed.

(** C10, as amended. The list of four command strings an invocation prepares
    is determined by the rendering of the target and the expression: two
    invocations that agree on both prepare the same list. Each submits the
    first so many strings of it, so of the two sequences submitted one is a
    prefix of the other, and they are the same whenever they have the same
    length. *)
Theorem C10_commands_determined `{LLDB}
    (debugger1 debugger2 : SBDebugger) (expression1 expression2 : string)
    (ctx1 ctx2 : SBExecutionContext) (result1 result2 : ref)
    (internal_dict1 internal_dict2 : PyDict) (w1 w2 : World) :
  host_str (target ctx1) (host w1) = host_str (target ctx2) (host w2) ->
  expression1 = expression2 ->
  the_commands expression1 ctx1 w1 = the_commands expression2 ctx2 w2 /\
  (submitted (trace debugger1 expression1 ctx1 result1 internal_dict1 w1)
     `prefix_of` submitted (trace debugger2 expression2 ctx2 result2 internal_dict2 w2) \/
   submitted (trace debugger2 expression2 ctx2 result2 internal_dict2 w2)
     `prefix_of` submitted (trace debugger1 expression1 ctx1 result1 internal_dict1 w1)) /\
  (length (submitted (trace debugger1 expression1 ctx1 result1 internal_dict1 w1)) =
   length (submitted (trace debugger2 expression2 ctx2 result2 internal_dict2 w2)) ->
   submitted (trace debugger1 expression1 ctx1 result1 internal_dict1 w1) =
   submitted (trace debugger2 expression2 ctx2 result2 internal_dict2 w2)).
Proof.
  intros Hname Hexpr.
  assert (Hc : the_commands expression1 ctx1 w1 = the_commands expression2 ctx2 w2).
  { unfold the_commands. rewrite Hname, Hexpr. reflexivity. }
  destruct (submitted_take debugger1 expression1 ctx1 result1 internal_dict1 w1)
    as (n1 & Hn1 & ->).
  destruct (submitted_take debugger2 expression2 ctx2 result2 internal_dict2 w2)
    as (n2 & Hn2 & ->).
  rewrite <- Hc. repeat apply conj.
  - reflexivity.
  - destruct (Nat.le_gt_cases n1 n2) as [Hle | Hgt].
    + left. replace n1 with (n1 `min` n2) by lia.
      rewrite <- take_take. apply prefix_take.
    + right. replace n2 with (n2 `min` n1) by lia.
      rewrite <- take_take. apply prefix_take.
  - rewrite !length_take, length_the_commands. intros Hlen.
    replace n1 with n2 by lia. reflexivity.
Qed.

(** ** The scenario of the specification, on the mock host *)

(** C4, as stated, fails: the strings submitted carry the [e -l swift --]
    prefix, so they are not the four bare Swift expressions. *)
Lemma C4_counterexample :
  host_str (target Mock.ctx) (host (Mock.world Mock.MyApp [])) = "MyApp" /\
  all_succeed tt "self.view" Mock.ctx (Mock.world Mock.MyApp []) /\
  submitted (trace tt "self.view" Mock.ctx Mock.result tt (Mock.world Mock.MyApp [])) <>
    [ "import MyApp"; "import UIKit"; "TreeDumpDebugger.present(self.view)";
      "CATransaction.flush()" ].
Proof.
  split; [reflexivity|]. split.
  - intros j Hj.
    assert (j = 1 \/ j = 2 \/ j = 3 \/ j = 4) as [-> | [-> | [-> | ->]]] by lia;
      reflexivity.
  - vm_compute. discriminate.
Qed.

(** C10, as stated, fails: two invocations with the same target and the same
    expression, one on a host where the import of UIKit fails, submit different
    sequences of commands. *)
Lemma C10_counterexample :
  host_str (target Mock.ctx) (host (Mock.world Mock.MyApp [])) =
  host_str (target Mock.ctx) (host (Mock.world Mock.MyApp Mock.no_UIKit)) /\
  submitted (trace tt "self.view" Mock.ctx Mock.result tt (Mock.world Mock.MyApp [])) <>
  submitted (trace tt "self.view" Mock.ctx Mock.result tt
               (Mock.world Mock.MyApp Mock.no_UIKit)).
Proof.
  split; [reflexivity|]. vm_compute. discriminate.
Qed.

(** ** The theorems at work on the mock host *)

(** The import of UIKit fails: two commands are submitted, the sink gets the
    error, nothing is resumed. *)
Lemma C2_witness :
  submitted (trace tt "self.view" Mock.ctx Mock.result tt
               (Mock.world Mock.MyApp Mock.no_UIKit)) =
    [ "e -l swift -- import MyApp"; "e -l swift -- import UIKit" ] /\
  errors_set (trace tt "self.view" Mock.ctx Mock.result tt
                (Mock.world Mock.MyApp Mock.no_UIKit)) =
    [ (Mock.result, "error: no such module 'UIKit'") ] /\
  objects (run tt "self.view" Mock.ctx Mock.result tt
             (Mock.world Mock.MyApp Mock.no_UIKit)) !! Mock.result =
    Some {| Mock.error := "error: no such module 'UIKit'";
            Mock.status := eReturnStatusFailed |} /\
  resumed (trace tt "self.view" Mock.ctx Mock.result tt
             (Mock.world Mock.MyApp Mock.no_UIKit)) = [] /\
  host (run tt "self.view" Mock.ctx Mock.result tt
          (Mock.world Mock.MyApp Mock.no_UIKit)) =
    fst (after tt "self.view" Mock.ctx (Mock.world Mock.MyApp Mock.no_UIKit) 2).
Proof.
  apply (C2_first_error_stops (H := Mock.lldb) tt "self.view" Mock.ctx Mock.result tt
           (Mock.world Mock.MyApp Mock.no_UIKit)
           2 "error: no such module 'UIKit'" Mock.sink).
  - reflexivity.
  - mock_fails_at.
Defined.

(** The expression made of one quote, on a host where nothing fails: the
    third command submitted holds the quote as it came. *)
Lemma C5_witness :
  submitted (trace tt "'" Mock.ctx Mock.result tt (Mock.world Mock.MyApp [])) !! 2 =
    Some "e -l swift -- TreeDumpDebugger.present(')".
Proof.
  destruct (C5_raw_interpolation (H := Mock.lldb) tt "'" Mock.ctx Mock.result tt
              (Mock.world Mock.MyApp []))
    as (_ & [(_ & _ & Hthird) | ([He | He] & _)] & _).
  - exact Hthird.
  - exfalso. apply He. reflexivity.
  - exfalso. apply He. reflexivity.
Defined.

(** All four succeed: one [Continue], one [SetAsync(True)], the sink with the
    success status and without error. *)
Lemma C3_witness :
  length (resumed (trace tt "self.view" Mock.ctx Mock.result tt
                     (Mock.world Mock.MyApp []))) = 1 /\
  async_set (trace tt "self.view" Mock.ctx Mock.result tt
               (Mock.world Mock.MyApp [])) = [true] /\
  statuses_set (trace tt "self.view" Mock.ctx Mock.result tt
                  (Mock.world Mock.MyApp [])) =
    [ (Mock.result, eReturnStatusSuccessContinuingNoResult) ] /\
  errors_set (trace tt "self.view" Mock.ctx Mock.result tt
                (Mock.world Mock.MyApp [])) = [] /\
  objects (run tt "self.view" Mock.ctx Mock.result tt
             (Mock.world Mock.MyApp [])) !! Mock.result =
    Some {| Mock.error := ""; Mock.status := eReturnStatusSuccessContinuingNoResult |}.
Proof.
  apply (C3_success_resumes_once (H := Mock.lldb) tt "self.view" Mock.ctx Mock.result tt
           (Mock.world Mock.MyApp []) Mock.sink).
  - reflexivity.
  - bounded_cases.
Defined.

Lemma C4_witness :
  submitted (trace tt "self.view" Mock.ctx Mock.result tt (Mock.world Mock.MyApp [])) =
    [ "e -l swift -- import MyApp";
      "e -l swift -- import UIKit";
      "e -l swift -- TreeDumpDebugger.present(self.view)";
      "e -l swift -- CATransaction.flush()" ] /\
  errors_set (trace tt "self.view" Mock.ctx Mock.result tt (Mock.world Mock.MyApp [])) = [] /\
  Mock.error (deref Mock.result (run tt "self.view" Mock.ctx Mock.result tt
                                   (Mock.world Mock.MyApp []))) = "" /\
  length (resumed (trace tt "self.view" Mock.ctx Mock.result tt
                     (Mock.world Mock.MyApp []))) = 1.
Proof.
  apply (C4_scenario_prefixed (H := Mock.lldb) tt "self.view" Mock.ctx Mock.result tt
           (Mock.world Mock.MyApp []) Mock.sink).
  - reflexivity.
  - reflexivity.
  - reflexivity.
  - reflexivity.
  - intros s c. reflexivity.
  - bounded_cases.
Defined.

Lemma C7_witness :
  submitted (trace tt "self.view" Mock.ctx Mock.result tt
               (Mock.world Mock.MyApp Mock.no_UIKit)) =
    [ "e -l swift -- import MyApp"; "e -l swift -- import UIKit" ] /\
  host (run tt "self.view" Mock.ctx Mock.result tt
          (Mock.world Mock.MyApp Mock.no_UIKit)) =
    fst (after tt "self.view" Mock.ctx (Mock.world Mock.MyApp Mock.no_UIKit) 2) /\
  async_set (trace tt "self.view" Mock.ctx Mock.result tt
               (Mock.world Mock.MyApp Mock.no_UIKit)) = [] /\
  statuses_set (trace tt "self.view" Mock.ctx Mock.result tt
                  (Mock.world Mock.MyApp Mock.no_UIKit)) = [] /\
  resumed (trace tt "self.view" Mock.ctx Mock.result tt
             (Mock.world Mock.MyApp Mock.no_UIKit)) = [] /\
  List.filter (writes Mock.result)
    (trace tt "self.view" Mock.ctx Mock.result tt (Mock.world Mock.MyApp Mock.no_UIKit)) =
    [ Call_SetError Mock.result "error: no such module 'UIKit'" ] /\
  last (trace tt "self.view" Mock.ctx Mock.result tt (Mock.world Mock.MyApp Mock.no_UIKit)) =
    Some (Call_SetError Mock.result "error: no such module 'UIKit'") /\
  objects (run tt "self.view" Mock.ctx Mock.result tt
             (Mock.world Mock.MyApp Mock.no_UIKit)) =
    [ {| Mock.error := "error: no such module 'UIKit'"; Mock.status := eReturnStatusFailed |};
      {| Mock.error := "error: no such module 'UIKit'"; Mock.status := eReturnStatusFailed |} ].
Proof.
  apply (C7_failure_frame (H := Mock.lldb) tt "self.view" Mock.ctx Mock.result tt
           (Mock.world Mock.MyApp Mock.no_UIKit)
           2 "error: no such module 'UIKit'" Mock.sink).
  - reflexivity.
  - mock_fails_at.
Defined.

(** The context names [MyApp], with process 1, while the debugger has [Helper]
    selected, with process 2: process 2 is resumed, process 1 is not. *)
Lemma C8_witness :
  resumed (trace tt "self.view" Mock.ctx Mock.result tt (Mock.world Mock.Helper [])) = [2] /\
  (exists pre : list Call,
     trace tt "self.view" Mock.ctx Mock.result tt (Mock.world Mock.Helper []) =
     pre ++ [ Call_GetSelectedTarget tt;
              Call_GetProcess Mock.Helper;
              Call_SetStatus Mock.result eReturnStatusSuccessContinuingNoResult;
              Call_SetAsync tt true;
              Call_Continue 2 ]) /\
  (1 <> 2 ->
   1 ∉ resumed (trace tt "self.view" Mock.ctx Mock.result tt (Mock.world Mock.Helper []))).
Proof.
  apply (C8_resumes_selected_target (H := Mock.lldb) tt "self.view" Mock.ctx Mock.result tt
           (Mock.world Mock.Helper [])).
  bounded_cases.
Defined.

Lemma C9_witness :
  allocated (trace tt "self.view" Mock.ctx Mock.result tt
               (Mock.world Mock.MyApp Mock.no_UIKit)) = [1] /\
  length (objects (run tt "self.view" Mock.ctx Mock.result tt
                     (Mock.world Mock.MyApp Mock.no_UIKit))) = 2.
Proof.
  pose proof (C9_one_shared_object (H := Mock.lldb) tt "self.view" Mock.ctx Mock.result tt
                (Mock.world Mock.MyApp Mock.no_UIKit) Mock.sink eq_refl)
    as (Halloc & Hlen & _).
  split; [exact Halloc | exact Hlen].
Defined.

Lemma C10_witness :
  the_commands "self.view" Mock.ctx (Mock.world Mock.MyApp []) =
  the_commands "self.view" Mock.ctx (Mock.world Mock.Helper Mock.no_UIKit) /\
  (submitted (trace tt "self.view" Mock.ctx Mock.result tt (Mock.world Mock.MyApp []))
     `prefix_of`
     submitted (trace tt "self.view" Mock.ctx Mock.result tt
                  (Mock.world Mock.Helper Mock.no_UIKit)) \/
   submitted (trace tt "self.view" Mock.ctx Mock.result tt
                (Mock.world Mock.Helper Mock.no_UIKit))
     `prefix_of`
     submitted (trace tt "self.view" Mock.ctx Mock.result tt (Mock.world Mock.MyApp []))) /\
  (length (submitted (trace tt "self.view" Mock.ctx Mock.result tt
                        (Mock.world Mock.MyApp []))) =
   length (submitted (trace tt "self.view" Mock.ctx Mock.result tt
                        (Mock.world Mock.Helper Mock.no_UIKit))) ->
   submitted (trace tt "self.view" Mock.ctx Mock.result tt (Mock.world Mock.MyApp [])) =
   submitted (trace tt "self.view" Mock.ctx Mock.result tt
                (Mock.world Mock.Helper Mock.no_UIKit))).
Proof.
  apply (@C10_commands_determined Mock.lldb tt tt "self.view" "self.view" Mock.ctx Mock.ctx
           Mock.result Mock.result tt tt
           (Mock.world Mock.MyApp []) (Mock.world Mock.Helper Mock.no_UIKit)).
  - reflexivity.
  - reflexivity.
Defined.

(** ** Further properties of the handler *)

Lemma append_inj_r (s t : string) (a : ascii) :
  s +:+ String a "" = t +:+ String a "" -> s = t.
Proof.
  revert t. induction s as [|x s IH]; intros [|y t] Heq.
  - reflexivity.
  - change (String a "" = String y (t +:+ String a "")) in Heq.
    injection Heq as _ Heq. destruct t; discriminate Heq.
  - change (String x (s +:+ String a "") = String a "") in Heq.
    injection Heq as _ Heq. destruct s; discriminate Heq.
  - change (String x (s +:+ String a "") = String y (t +:+ String a "")) in Heq.
    injection Heq as -> Heq. f_equal. apply IH. exact Heq.
Qed.

Lemma interpreters_used_loop_calls `{LLDB} i res (cmds : list string) :
  interpreters_used (loop_calls i res cmds) = replicate (length cmds) i.
Proof. induction cmds as [|c l IH]; simpl; [reflexivity|]. f_equal. exact IH. Qed.

Lemma interpreters_asked_loop_calls `{LLDB} i res (cmds : list string) :
  interpreters_asked (loop_calls i res cmds) = [].
Proof. induction cmds as [|c l IH]; simpl; [reflexivity|]. exact IH. Qed.

Section Extras.
Context `{LLDB}.
Variables (debugger : SBDebugger) (expression : string) (ctx : SBExecutionContext)
          (result : ref) (internal_dict : PyDict) (w : World).

Local Abbreviation Run := (run debugger expression ctx result internal_dict w).
Local Abbreviation Trace := (trace debugger expression ctx result internal_dict w).
Local Abbreviation Commands := (the_commands expression ctx w).
Local Abbreviation Interpreter := (the_interpreter debugger w).
Local Abbreviation Res := (the_res w).
Local Abbreviation After := (after debugger expression ctx w).
Local Abbreviation ErrorOf := (error_of debugger expression ctx w).
Local Abbreviation FailsAt := (fails_at debugger expression ctx w).
Local Abbreviation AllSucceed := (all_succeed debugger expression ctx w).


(** X2. Every invocation reports to the sink exactly once. Either it calls
    [SetStatus] once, with the success status, never [SetError], and resumes
    the process once; or it calls [SetError] once, with a text that is not
    empty, never [SetStatus], and resumes nothing. *)
Theorem X2_one_report :
  (statuses_set Trace = [(result, eReturnStatusSuccessContinuingNoResult)] /\
   errors_set Trace = [] /\
   length (resumed Trace) = 1) \/
  (exists e, e <> "" /\
   errors_set Trace = [(result, e)] /\
   statuses_set Trace = [] /\
   resumed Trace = []).
Proof.
  destruct (outcome_cases debugger expression ctx w) as [Hok | (k & e & Hf)].
  - left.
    rewrite (trace_success debugger expression ctx result internal_dict w Hok).
    repeat apply conj.
    + apply statuses_set_success.
    + apply errors_set_success.
    + rewrite resumed_success. reflexivity.
  - right. exists e.
    rewrite (trace_failure debugger expression ctx result internal_dict w k e Hf).
    repeat apply conj.
    + apply Hf.
    + apply errors_set_failure.
    + apply statuses_set_failure.
    + apply resumed_failure.
Qed.

(** X3. When all four sub-commands succeed, the host ends in the state the
    fourth sub-command left, with [SetAsync(True)] and then [Continue] of the
    selected process applied to it, in this order; and the store is the store
    the handler was given with the status of the sink set, followed by the
    object the handler created, as the fourth sub-command left it. *)
Theorem X3_success_state (r0 : CommandReturn) :
  objects w !! result = Some r0 ->
  AllSucceed ->
  host Run =
    host_Continue
      (host_GetProcess (host_GetSelectedTarget debugger (fst (After 4))) (fst (After 4)))
      (host_SetAsync debugger true (fst (After 4))) /\
  objects Run =
    <[result := host_SetStatus eReturnStatusSuccessContinuingNoResult r0]> (objects w)
    ++ [snd (After 4)].
Proof.
  intros Hr Hok. split.
  - rewrite (run_success debugger expression ctx result internal_dict w Hok).
    reflexivity.
  - apply (result_success debugger expression ctx result internal_dict w r0 Hr Hok).
Qed.

(** X4. The handler asks for the command interpreter once, of the debugger it
    was given, and submits every sub-command through the interpreter it got. *)
Theorem X4_one_interpreter :
  interpreters_asked Trace = [debugger] /\
  exists n, 1 <= n <= 4 /\
    interpreters_used Trace =
      replicate n (host_GetCommandInterpreter debugger (host w)).
Proof.
  destruct (outcome_cases debugger expression ctx w) as [Hok | (k & e & Hf)].
  - rewrite (trace_success debugger expression ctx result internal_dict w Hok).
    unfold success_calls. split.
    + unfold interpreters_asked. rewrite !omap_app.
      fold (interpreters_asked (loop_calls Interpreter Res Commands)).
      rewrite interpreters_asked_loop_calls. reflexivity.
    + exists 4. split; [lia|].
      unfold interpreters_used. rewrite !omap_app.
      fold (interpreters_used (loop_calls Interpreter Res Commands)).
      rewrite interpreters_used_loop_calls. reflexivity.
  - rewrite (trace_failure debugger expression ctx result internal_dict w k e Hf).
    unfold failure_calls. split.
    + unfold interpreters_asked. rewrite !omap_app.
      fold (interpreters_asked (loop_calls Interpreter Res (take k Commands))).
      rewrite interpreters_asked_loop_calls. reflexivity.
    + exists k. split; [apply Hf|].
      unfold interpreters_used. rewrite !omap_app.
      fold (interpreters_used (loop_calls Interpreter Res (take k Commands))).
      rewrite interpreters_used_loop_calls.
      rewrite length_take, length_the_commands.
      replace (k `min` 4) with k by (destruct Hf as (Hk & _); lia).
      cbn [omap app]. rewrite app_nil_r. reflexivity.
Qed.

(** X5. Whatever the outcome, the handler leaves every command-return object
    of the host other than the sink as it was. *)
Theorem X5_other_objects_untouched (r0 : CommandReturn) (i : nat) :
  objects w !! result = Some r0 ->
  i < length (objects w) ->
  i <> result ->
  objects Run !! i = objects w !! i.
Proof.
  intros Hr Hi Hne.
  destruct (outcome_cases debugger expression ctx w) as [Hok | (k & e & Hf)].
  - rewrite (result_success debugger expression ctx result internal_dict w r0 Hr Hok).
    rewrite lookup_app_l by (rewrite length_insert; exact Hi).
    apply list_lookup_insert_ne. congruence.
  - rewrite (result_failure debugger expression ctx result internal_dict w k e r0 Hr Hf).
    rewrite lookup_app_l by (rewrite length_insert; exact Hi).
    apply list_lookup_insert_ne. congruence.
Qed.

End Extras.

(** X6. The list of commands determines what it was built from: two lists are
    equal only if the target names are equal and the expressions are equal. *)
Theorem X6_commands_injective (name1 name2 expression1 expression2 : string) :
  commands name1 expression1 = commands name2 expression2 ->
  name1 = name2 /\ expression1 = expression2.
Proof.
  rewrite !commands_eq. intros Heq.
  injection Heq as Hname Hexpr. split.
  - exact Hname.
  - apply (append_inj_r _ _ ")"). exact Hexpr.
Qed.

Lemma X3_witness :
  Mock.async (host (run tt "self.view" Mock.ctx Mock.result tt
                      (Mock.world Mock.MyApp []))) = true /\
  Mock.running (host (run tt "self.view" Mock.ctx Mock.result tt
                        (Mock.world Mock.MyApp []))) = [1] /\
  length (objects (run tt "self.view" Mock.ctx Mock.result tt
                     (Mock.world Mock.MyApp []))) = 2.
Proof.
  pose proof (X3_success_state (H := Mock.lldb) tt "self.view" Mock.ctx Mock.result tt
                (Mock.world Mock.MyApp []) Mock.sink eq_refl
                ltac:(bounded_cases)) as (Hhost & Hobjects).
  rewrite Hhost, Hobjects. repeat apply conj; reflexivity.
Defined.

Lemma X5_witness :
  objects (run tt "self.view" Mock.ctx 1 tt
             (mkWorld (host (Mock.world Mock.MyApp Mock.no_UIKit))
                      [Mock.sink; Mock.sink] [])) !! 0 = Some Mock.sink.
Proof.
  apply (X5_other_objects_untouched (H := Mock.lldb) tt "self.view" Mock.ctx 1 tt
           (mkWorld (host (Mock.world Mock.MyApp Mock.no_UIKit))
                    [Mock.sink; Mock.sink] [])
           Mock.sink 0).
  - reflexivity.
  - simpl. lia.
  - lia.
Defined.

Lemma X6_witness : "MyApp" = "MyApp" /\ "self.view" = "self.view".
Proof.
  apply (X6_commands_injective "MyApp" "MyApp" "self.view" "self.view").
  reflexivity.
Defined.
